(** * Numeric test-input generators of [number_helpers.py]

    A shallow embedding of the three hypothesis strategies [floats], [ints]
    and [number] of
    [ivy_tests/test_ivy/helpers/hypothesis_helpers/number_helpers.py].

    A composite strategy is a program that talks to the host framework through
    [draw]; it is embedded as a tree of draw requests ([gen]), and run against
    the list of answers the host gives ([run]).  Python floats are IEEE
    binary64 values ([spec_float] at precision 53), Python integers are [Z]. *)

From Stdlib Require Import ZArith List String Bool Lia QArith.
From Stdlib Require Import SpecFloat.
Import ListNotations.
Local Open Scope string_scope.
Local Open Scope Z_scope.

Set Implicit Arguments.

(** ** Python numbers *)

(** Exceptions the generators and the functions they call can raise. *)
Inductive exn : Set :=
| RangeError
| TypeError
| ValueError
| KeyError
| IndexError
| OverflowError
| ZeroDivisionError
| AssertionError.

(** Result of a computation that may raise. *)
Inductive res (A : Type) : Type :=
| Ok (a : A)
| Err (e : exn).
Arguments Ok {A} a.
Arguments Err {A} e.

Definition bind {A B : Type} (c : res A) (k : A -> res B) : res B :=
  match c with
  | Ok a => k a
  | Err e => Err e
  end.

(** Python floats are binary64. *)
Definition prec64 : Z := 53.
Definition emax64 : Z := 1024.

(** A Python number: an [int] or a [float]. *)
Inductive num : Type :=
| NInt (z : Z)
| NFloat (x : spec_float).

(** Unary minus. *)
Definition py_neg (a : num) : num :=
  match a with
  | NInt z => NInt (- z)
  | NFloat x => NFloat (SFopp x)
  end.

(** Exact comparison of a float with an integer: a finite float is
    [+- m * 2^e]; both sides are brought to a common integer scale. *)
Definition cmp_float_int (x : spec_float) (z : Z) : option comparison :=
  match x with
  | S754_nan => None
  | S754_infinity s => Some (if s then Lt else Gt)
  | S754_zero _ => Some (0 ?= z)
  | S754_finite s m e =>
      let sm := if s then Z.neg m else Z.pos m in
      Some (if 0 <=? e then (sm * 2 ^ e ?= z) else (sm ?= z * 2 ^ (- e)))
  end.

Definition opp_cmp (c : option comparison) : option comparison :=
  match c with
  | Some c => Some (CompOpp c)
  | None => None
  end.

(** Python's ordering of two numbers; [None] when one side is NaN. *)
Definition py_compare (a b : num) : option comparison :=
  match a, b with
  | NInt x, NInt y => Some (x ?= y)
  | NFloat x, NFloat y => SFcompare x y
  | NFloat x, NInt y => cmp_float_int x y
  | NInt x, NFloat y => opp_cmp (cmp_float_int y x)
  end.

(** [a < b], [a > b], [a <= b], [a >= b] *)
Definition py_lt (a b : num) : bool :=
  match py_compare a b with Some Lt => true | _ => false end.
Definition py_gt (a b : num) : bool := py_lt b a.
Definition py_le (a b : num) : bool :=
  match py_compare a b with Some (Lt | Eq) => true | _ => false end.
Definition py_ge (a b : num) : bool := py_le b a.

(** [a == 0] *)
Definition py_is_zero (a : num) : bool :=
  match py_compare a (NInt 0) with Some Eq => true | _ => false end.

Definition is_nan (x : spec_float) : bool :=
  match x with S754_nan => true | _ => false end.

Definition is_inf (x : spec_float) : bool :=
  match x with S754_infinity _ => true | _ => false end.

Declare Scope py_scope.
Delimit Scope py_scope with py.
Notation "x <- c ;; k" := (bind c (fun x => k))
  (at level 61, c at next level, right associativity) : py_scope.
Notation "' p <- c ;; k" := (bind c (fun p => k))
  (at level 61, p pattern, c at next level, right associativity) : py_scope.
Local Open Scope py_scope.

(** ** Strategies and composite generators *)

(** Keyword arguments of the host's [st.floats]. *)
Record floats_args : Type := {
  fa_min_value : spec_float;
  fa_max_value : spec_float;
  fa_allow_nan : bool;
  fa_allow_subnormal : bool;
  fa_allow_infinity : bool;
  fa_width : Z;
  fa_exclude_min : bool;
  fa_exclude_max : bool
}.

(** What [draw] hands back to a generator. *)
Inductive value : Type :=
| VInt (z : Z)
| VFloat (x : spec_float)
| VDtypes (l : list string).

(** A strategy is one of the host's primitives, the dtype selector, the
    host's choice between two strategies ([st.one_of(a, b)], [a | b]), or a
    [@st.composite] function applied to its arguments: a [gen], the program
    that issues draws and ends with a value or an exception. *)
Inductive strategy : Type :=
| st_get_dtypes (kind : string) (full : bool)
| st_floats (kw : floats_args)
| st_integers (min_value max_value : option num)
| st_one_of (a b : strategy)
| st_composite (body : gen)
with gen : Type :=
| Ret (v : value)
| Raise (e : exn)
| Draw (s : strategy) (k : value -> gen).


(** Continue with the result of a pure computation, or raise its error. *)
Definition lift {A : Type} (c : res A) (k : A -> gen) : gen :=
  match c with
  | Ok a => k a
  | Err e => Raise e
  end.

(** [dtype[0]] on what the dtype selector returned. *)
Definition subscript0 (v : value) : res string :=
  match v with
  | VDtypes (d :: _) => Ok d
  | VDtypes [] => Err IndexError
  | _ => Err TypeError
  end.

(** ** The module-level table [floats_info] *)

Record float_info : Type := {
  cast_type : string;
  width : Z
}.

Definition floats_info : list (string * float_info) :=
  [ ("float16",  {| cast_type := "float16"; width := 16 |});
    ("bfloat16", {| cast_type := "float32"; width := 32 |});
    ("float32",  {| cast_type := "float32"; width := 32 |});
    ("float64",  {| cast_type := "float64"; width := 64 |}) ].

(** [d[key]] on a dict: the first binding of the key, [KeyError] without. *)
Fixpoint getitem {A : Type} (d : list (string * A)) (key : string) : res A :=
  match d with
  | [] => Err KeyError
  | (k, a) :: d' => if String.eqb k key then Ok a else getitem d' key
  end.

(** [floats_info[dtype]["width"]] *)
Definition info_width (dtype : string) : res Z :=
  i <- getitem floats_info dtype ;; Ok (width i).
Arguments info_width : simpl never.

(** ** Keyword arguments of the generators *)

(** Keyword arguments of [gh.apply_safety_factor] as the generators pass
    them; a field left out by the caller is [None]. *)
Record safety_args : Type := {
  sa_min_value : option num;
  sa_max_value : option num;
  sa_abs_smallest_val : option num;
  sa_small_abs_safety_factor : option num;
  sa_large_abs_safety_factor : num;
  sa_safety_factor_scale : string
}.

(** Keyword arguments of [floats]; the scale mode is a mode name, forwarded
    to the scaling as it is. *)
Record floats_kwargs : Type := {
  fk_min_value : option num;
  fk_max_value : option num;
  fk_abs_smallest_val : option num;
  fk_allow_nan : bool;
  fk_allow_inf : bool;
  fk_allow_subnormal : bool;
  fk_exclude_min : bool;
  fk_exclude_max : bool;
  fk_large_abs_safety_factor : num;
  fk_small_abs_safety_factor : num;
  fk_safety_factor_scale : string
}.

(** Keyword arguments of [ints]; its scale mode may be [None], which line
    176 tests for. *)
Record ints_kwargs : Type := {
  ik_min_value : option num;
  ik_max_value : option num;
  ik_safety_factor : num;
  ik_safety_factor_scale : option string
}.

(** Keyword arguments of [number]; the scale mode is a mode name, as for
    [floats], to which it is forwarded. *)
Record number_kwargs : Type := {
  nk_min_value : option num;
  nk_max_value : option num;
  nk_large_abs_safety_factor : num;
  nk_small_abs_safety_factor : num;
  nk_safety_factor_scale : string
}.

(** The float literal [1.1]: 0x1.199999999999ap+0. *)
Definition f1_1 : num := NFloat (S754_finite false 4953959590107546 (-52)).

Definition floats_defaults : floats_kwargs := {|
  fk_min_value := None;
  fk_max_value := None;
  fk_abs_smallest_val := None;
  fk_allow_nan := false;
  fk_allow_inf := false;
  fk_allow_subnormal := false;
  fk_exclude_min := true;
  fk_exclude_max := true;
  fk_large_abs_safety_factor := f1_1;
  fk_small_abs_safety_factor := f1_1;
  fk_safety_factor_scale := "linear"
|}.

Definition ints_defaults : ints_kwargs := {|
  ik_min_value := None;
  ik_max_value := None;
  ik_safety_factor := f1_1;
  ik_safety_factor_scale := None
|}.

Definition number_defaults : number_kwargs := {|
  nk_min_value := None;
  nk_max_value := None;
  nk_large_abs_safety_factor := f1_1;
  nk_small_abs_safety_factor := f1_1;
  nk_safety_factor_scale := "linear"
|}.

(** The keywords of an [st.floats(...)] call in [floats], given the width
    and the two bounds already cast. *)
Definition window_args (r : floats_kwargs) (w : Z)
    (min_value max_value : spec_float) : floats_args := {|
  fa_min_value := min_value;
  fa_max_value := max_value;
  fa_allow_nan := fk_allow_nan r;
  fa_allow_subnormal := fk_allow_subnormal r;
  fa_allow_infinity := fk_allow_inf r;
  fa_width := w;
  fa_exclude_min := fk_exclude_min r;
  fa_exclude_max := fk_exclude_max r
|}.

(** ** The generators *)

Section Generators.

(** [gh.apply_safety_factor], defined in [general_helpers]: given the dtype
    name and the keyword arguments it returns
    [(min_value, max_value, abs_smallest_val)] or raises. *)
Variable apply_safety_factor :
  string -> safety_args -> res (num * num * option num).

(** [hypothesis.internal.floats.float_of]: the value converted to a float
    of the given width. *)
Variable float_of : num -> Z -> res spec_float.

(** One [st.floats(...)] call of [floats]: both bounds cast to the width
    of the dtype, the remaining keywords taken from the request. *)
Definition floats_window (r : floats_kwargs) (dtype : string)
    (lo hi : num) : res strategy :=
  w1 <- info_width dtype ;;
  min_value <- float_of lo w1 ;;
  w2 <- info_width dtype ;;
  max_value <- float_of hi w2 ;;
  w <- info_width dtype ;;
  Ok (st_floats (window_args r w min_value max_value)).

(** Lines 96-129 of [floats]: the strategy the final draw is made from. *)
Definition float_strategy (r : floats_kwargs) (dtype : string)
    (min_value max_value : num) (abs_smallest_val : option num)
    : res strategy :=
  match abs_smallest_val with
  | None => Err TypeError
  | Some a =>
      if py_gt min_value (py_neg a) || py_lt max_value a then
        floats_window r dtype min_value max_value
      else
        below <- floats_window r dtype min_value (py_neg a) ;;
        above <- floats_window r dtype a max_value ;;
        Ok (st_one_of below above)
  end.

Definition floats_safety_args (r : floats_kwargs) : safety_args := {|
  sa_min_value := fk_min_value r;
  sa_max_value := fk_max_value r;
  sa_abs_smallest_val := fk_abs_smallest_val r;
  sa_small_abs_safety_factor := Some (fk_small_abs_safety_factor r);
  sa_large_abs_safety_factor := fk_large_abs_safety_factor r;
  sa_safety_factor_scale := fk_safety_factor_scale r
|}.

Definition floats (r : floats_kwargs) : gen :=
  Draw (st_get_dtypes "float" false) (fun dtype =>
  lift (subscript0 dtype) (fun dtype =>
  lift (apply_safety_factor dtype (floats_safety_args r))
    (fun '(min_value, max_value, abs_smallest_val) =>
  lift (float_strategy r dtype min_value max_value abs_smallest_val)
    (fun float_strategy =>
  Draw float_strategy (fun values =>
  Ret values))))).

(** The scale mode [ints] works with after line 174. *)
Definition ints_scale (r : ints_kwargs) : option string :=
  match ik_min_value r, ik_max_value r with
  | None, None => Some "linear"
  | _, _ => ik_safety_factor_scale r
  end.

Definition ints_safety_args (r : ints_kwargs) (scale : string)
    : safety_args := {|
  sa_min_value := ik_min_value r;
  sa_max_value := ik_max_value r;
  sa_abs_smallest_val := None;
  sa_small_abs_safety_factor := None;
  sa_large_abs_safety_factor := ik_safety_factor r;
  sa_safety_factor_scale := scale
|}.

Definition ints (r : ints_kwargs) : gen :=
  Draw (st_get_dtypes "integer" false) (fun dtype =>
  match ints_scale r with
  | Some safety_factor_scale =>
      lift (subscript0 dtype) (fun dtype0 =>
      lift (apply_safety_factor dtype0 (ints_safety_args r safety_factor_scale))
        (fun '(min_value, max_value, _) =>
      Draw (st_integers (Some min_value) (Some max_value)) Ret))
  | None =>
      Draw (st_integers (ik_min_value r) (ik_max_value r)) Ret
  end).

(** The keyword arguments [number] calls [ints] with. *)
Definition number_ints_kwargs (r : number_kwargs) : ints_kwargs := {|
  ik_min_value := nk_min_value r;
  ik_max_value := nk_max_value r;
  ik_safety_factor := nk_large_abs_safety_factor r;
  ik_safety_factor_scale := Some (nk_safety_factor_scale r)
|}.

(** The keyword arguments [number] calls [floats] with; the others keep
    the defaults of [floats]. *)
Definition number_floats_kwargs (r : number_kwargs) : floats_kwargs := {|
  fk_min_value := nk_min_value r;
  fk_max_value := nk_max_value r;
  fk_abs_smallest_val := fk_abs_smallest_val floats_defaults;
  fk_allow_nan := fk_allow_nan floats_defaults;
  fk_allow_inf := fk_allow_inf floats_defaults;
  fk_allow_subnormal := fk_allow_subnormal floats_defaults;
  fk_exclude_min := fk_exclude_min floats_defaults;
  fk_exclude_max := fk_exclude_max floats_defaults;
  fk_large_abs_safety_factor := nk_large_abs_safety_factor r;
  fk_small_abs_safety_factor := nk_small_abs_safety_factor r;
  fk_safety_factor_scale := nk_safety_factor_scale r
|}.

Definition number (r : number_kwargs) : gen :=
  Draw (st_one_of (st_composite (ints (number_ints_kwargs r)))
                  (st_composite (floats (number_floats_kwargs r))))
       Ret.

End Generators.

(** ** Running a generator against the host *)

(** One answer of the host: which side of a [one_of] it selects, or the
    value a primitive strategy produces. *)
Inductive answer : Type :=
| Pick (first : bool)
| Give (v : value).

(** Smallest normal magnitude of a float width, as a power of two. *)
Definition smallest_normal_exp (w : Z) : Z :=
  if w =? 16 then -14 else if w =? 32 then -126 else -1022.

(** A nonzero finite float below the smallest normal of the width:
    [m * 2^e < 2^k] exactly when [m] has at most [k - e] binary digits. *)
Definition is_subnormal (w : Z) (x : spec_float) : bool :=
  match x with
  | S754_finite _ m e => Z.pos (digits2_pos m) + e <=? smallest_normal_exp w
  | _ => false
  end.

(** Contract of the host's float draw: a binary64 value; NaN only when
    allowed; otherwise inside the closed window, off an excluded end,
    infinite or subnormal only when allowed. *)
Definition floats_admits (kw : floats_args) (x : spec_float) : bool :=
  valid_binary prec64 emax64 x &&
  if is_nan x then fa_allow_nan kw
  else
    implb (is_inf x) (fa_allow_infinity kw) &&
    implb (is_subnormal (fa_width kw) x) (fa_allow_subnormal kw) &&
    SFleb (fa_min_value kw) x && SFleb x (fa_max_value kw) &&
    implb (fa_exclude_min kw) (negb (SFeqb x (fa_min_value kw))) &&
    implb (fa_exclude_max kw) (negb (SFeqb x (fa_max_value kw))).

(** Contract of the host's integer draw: inside the stated bounds,
    unbounded on a side that is [None]. *)
Definition integers_admits (lo hi : option num) (z : Z) : bool :=
  match lo with Some a => py_le a (NInt z) | None => true end &&
  match hi with Some b => py_le (NInt z) b | None => true end.

(** The values a primitive strategy may produce. *)
Definition admits (s : strategy) (v : value) : bool :=
  match s, v with
  | st_get_dtypes _ _, VDtypes _ => true
  | st_floats kw, VFloat x => floats_admits kw x
  | st_integers lo hi, VInt z => integers_admits lo hi z
  | _, _ => false
  end.

(** How a run ends: with a value and the answers not consumed, with an
    exception, waiting for the host to answer a draw on [s], or with an
    answer the host cannot give. *)
Inductive outcome : Type :=
| Returned (v : value) (rest : list answer)
| Raised (e : exn)
| Blocked (s : strategy)
| Illegal.

Fixpoint run (g : gen) (tr : list answer) {struct g} : outcome :=
  match g with
  | Ret v => Returned v tr
  | Raise e => Raised e
  | Draw s k =>
      match draw s tr with
      | Returned v tr' => run (k v) tr'
      | o => o
      end
  end
with draw (s : strategy) (tr : list answer) {struct s} : outcome :=
  match s with
  | st_composite body => run body tr
  | st_one_of a b =>
      match tr with
      | [] => Blocked s
      | Pick first :: tr' => if first then draw a tr' else draw b tr'
      | Give _ :: _ => Illegal
      end
  | _ =>
      match tr with
      | [] => Blocked s
      | Give v :: tr' => if admits s v then Returned v tr' else Illegal
      | Pick _ :: _ => Illegal
      end
  end.



(** The [st.floats] calls a float strategy is made of. *)
Fixpoint float_draws (s : strategy) : list floats_args :=
  match s with
  | st_floats kw => [kw]
  | st_one_of a b => float_draws a ++ float_draws b
  | _ => []
  end.

(** ** The host's [float_of] *)

Module HostLib.

(** [float(x)]: an [int] is rounded to the nearest binary64, and is too
    large when that is infinite. *)
Definition to_float (a : num) : res spec_float :=
  match a with
  | NFloat x => Ok x
  | NInt z =>
      let x := binary_normalize prec64 emax64 z 0 false in
      if is_inf x then Err OverflowError else Ok x
  end.

(** [struct.unpack(fmt, struct.pack(fmt, x))]: a finite [x] rounded to the
    nearest float of precision [prec] and exponent bound [emax], read back as
    a binary64; packing overflows when the rounded value is infinite. *)
Definition reinterpret_bits (prec emax : Z) (x : spec_float)
    : res spec_float :=
  match x with
  | S754_finite s m e =>
      match binary_round prec emax s m e with
      | S754_finite s' m' e' => Ok (binary_round prec64 emax64 s' m' e')
      | S754_infinity _ => Err OverflowError
      | y => Ok y
      end
  | _ => Ok x
  end.

Definition float_of (a : num) (w : Z) : res spec_float :=
  if negb ((w =? 16) || (w =? 32) || (w =? 64)) then Err AssertionError
  else
    x <- to_float a ;;
    if w =? 64 then Ok x
    else if w =? 32 then reinterpret_bits 24 128 x
    else reinterpret_bits 11 16 x.

End HostLib.

(** ** The safety-factor scaler *)

Module Scaler.

(** Modelled from the spec: the NumericDomain of section 3, which the dtype
    catalogue (outside this file) supplies for a dtype name. *)
Record NumericDomain : Type := {
  type_name : string;
  bit_width : Z;
  representable_min : num;
  representable_max : num;
  smallest_normal_magnitude : option num
}.

(** The binary64 value [m * 2^e]. *)
Definition pyfloat (m e : Z) : num :=
  NFloat (binary_normalize prec64 emax64 m e false).

Definition int_domain (name : string) (bits : Z) (signed : bool)
    : NumericDomain := {|
  type_name := name;
  bit_width := bits;
  representable_min := NInt (if signed then - 2 ^ (bits - 1) else 0);
  representable_max :=
    NInt (if signed then 2 ^ (bits - 1) - 1 else 2 ^ bits - 1);
  smallest_normal_magnitude := None
|}.

(** A binary float format with [p] bits of precision and largest exponent
    [emax]: largest value [(2^p - 1) * 2^(emax - p)], smallest normal
    [2^(2 - emax)]. *)
Definition float_domain (name : string) (bits p emax : Z)
    : NumericDomain := {|
  type_name := name;
  bit_width := bits;
  representable_min := pyfloat (- (2 ^ p - 1)) (emax - p);
  representable_max := pyfloat (2 ^ p - 1) (emax - p);
  smallest_normal_magnitude := Some (pyfloat 1 (2 - emax))
|}.

(** Modelled from the spec: the Domain Resolver of section 6 on a resolved
    dtype name, with the limits of the integer and IEEE formats. *)
Definition domains : list (string * NumericDomain) :=
  [ ("int8", int_domain "int8" 8 true);
    ("int16", int_domain "int16" 16 true);
    ("int32", int_domain "int32" 32 true);
    ("int64", int_domain "int64" 64 true);
    ("uint8", int_domain "uint8" 8 false);
    ("uint16", int_domain "uint16" 16 false);
    ("uint32", int_domain "uint32" 32 false);
    ("uint64", int_domain "uint64" 64 false);
    ("float16", float_domain "float16" 16 11 16);
    ("bfloat16", float_domain "bfloat16" 16 8 128);
    ("float32", float_domain "float32" 32 24 128);
    ("float64", float_domain "float64" 64 53 1024) ].

Definition get_domain (dtype : string) : res NumericDomain :=
  match getitem domains dtype with
  | Ok d => Ok d
  | Err _ => Err TypeError
  end.

(** [a / b] and [a * b] on Python numbers, in binary64. *)
Definition py_div (a b : num) : res num :=
  x <- HostLib.to_float a ;;
  y <- HostLib.to_float b ;;
  if py_is_zero (NFloat y) then Err ZeroDivisionError
  else Ok (NFloat (SFdiv prec64 emax64 x y)).

Definition py_mul (a b : num) : res num :=
  match a, b with
  | NInt x, NInt y => Ok (NInt (x * y))
  | _, _ =>
      x <- HostLib.to_float a ;;
      y <- HostLib.to_float b ;;
      Ok (NFloat (SFmul prec64 emax64 x y))
  end.

Section Scale.

(** [sign(x) * 2^(log2(|x|) / k)], which the platform's math library
    computes; it is not one of the IEEE operations. *)
Variable log_scale : num -> num -> res num.

(** Modelled from the spec: the adjustment of one magnitude by a safety
    factor in section 4.1; [shrink] divides (the large factor), and
    otherwise the linear mode multiplies (the small factor), while the
    log mode divides the exponent in both cases. *)
Definition adjust (mode : string) (shrink : bool) (x k : num) : res num :=
  if String.eqb mode "linear" then
    if shrink then py_div x k else py_mul x k
  else if String.eqb mode "log" then log_scale x k
  else Err ValueError.

(** Modelled from the spec: a bound brought back inside the domain's
    representable range. *)
Definition clamp (dom : NumericDomain) (x : num) : num :=
  if py_lt x (representable_min dom) then representable_min dom
  else if py_gt x (representable_max dom) then representable_max dom
  else x.

Definition or_default (o : option num) (d : num) : num :=
  match o with Some a => a | None => d end.

(** Modelled from the spec: [gh.apply_safety_factor], which is defined in
    [general_helpers] and not in this file, as the SafetyFactorScaler of
    section 4.1: unstated bounds default to the domain's limits, both
    bounds are adjusted by the large factor, the excluded-band magnitude of
    a float domain by the small factor (an integer domain has none), the
    bounds are clamped to the domain, and an inverted window is a
    RangeError. *)
Definition apply_safety_factor (dtype : string) (kw : safety_args)
    : res (num * num * option num) :=
  dom <- get_domain dtype ;;
  let mode := sa_safety_factor_scale kw in
  let large := sa_large_abs_safety_factor kw in
  min_value <- adjust mode true
    (or_default (sa_min_value kw) (representable_min dom)) large ;;
  max_value <- adjust mode true
    (or_default (sa_max_value kw) (representable_max dom)) large ;;
  abs_smallest_val <-
    match smallest_normal_magnitude dom with
    | None => Ok None
    | Some smallest =>
        let a := or_default (sa_abs_smallest_val kw) smallest in
        match sa_small_abs_safety_factor kw with
        | Some small => a' <- adjust mode false a small ;; Ok (Some a')
        | None => Ok (Some a)
        end
    end ;;
  let min_value := clamp dom min_value in
  let max_value := clamp dom max_value in
  if py_gt min_value max_value then Err RangeError
  else Ok (min_value, max_value, abs_smallest_val).

End Scale.

(** The requests evaluated below scale linearly; the log mode is left to
    the math library and given no value here. *)
Definition no_log_scale (x k : num) : res num := Err ValueError.

End Scaler.


(** * Properties *)

(** ** Ordering of Python numbers *)

Lemma SFcompare_antisym (x y : spec_float) :
  SFcompare y x = opp_cmp (SFcompare x y).
Proof.
  destruct x as [sx|sx| |sx mx ex], y as [sy|sy| |sy my ey]; simpl;
    try reflexivity;
    try (destruct sx; reflexivity);
    try (destruct sy; reflexivity);
    try (destruct sx, sy; reflexivity).
  assert (M : Pos.compare_cont Eq my mx = CompOpp (Pos.compare_cont Eq mx my))
    by (now rewrite (Pos.compare_cont_antisym mx my Eq)).
  destruct sx, sy; simpl; try reflexivity;
    rewrite (Z.compare_antisym ex ey), M;
    destruct (ex ?= ey); simpl; try reflexivity;
    now rewrite ?CompOpp_involutive.
Qed.

Lemma py_compare_antisym (a b : num) :
  py_compare b a = opp_cmp (py_compare a b).
Proof.
  destruct a as [x|x], b as [y|y]; simpl.
  - now rewrite (Z.compare_antisym x y).
  - destruct (cmp_float_int y x) as [c|]; simpl;
      [now rewrite CompOpp_involutive | reflexivity].
  - reflexivity.
  - apply SFcompare_antisym.
Qed.

Lemma py_le_not_gt (a b : num) : py_le a b = true -> py_gt a b = false.
Proof.
  unfold py_le, py_gt, py_lt. rewrite (py_compare_antisym a b).
  destruct (py_compare a b) as [[]|]; simpl; congruence.
Qed.

Lemma SFleb_not_ltb (x y : spec_float) :
  SFleb x y = true -> SFltb y x = false.
Proof.
  unfold SFleb, SFltb. rewrite (SFcompare_antisym x y).
  destruct (SFcompare x y) as [[]|]; simpl; congruence.
Qed.

Lemma SFltb_nan (x y : spec_float) :
  is_nan y = true -> SFltb x y = false.
Proof. destruct y; try discriminate. now destruct x. Qed.

(** ** Runs *)

Lemma run_draw_ret (s : strategy) (tr : list answer) :
  run (Draw s Ret) tr = draw s tr.
Proof. simpl. now destruct (draw s tr). Qed.

Lemma run_lift {A : Type} (c : res A) (k : A -> gen) (tr : list answer) :
  run (lift c k) tr =
  match c with Ok a => run (k a) tr | Err e => Raised e end.
Proof. now destruct c. Qed.

(** A primitive draw returns only values the host's contract admits. *)
Lemma draw_floats_returned kw tr v rest :
  draw (st_floats kw) tr = Returned v rest ->
  exists x, v = VFloat x /\ floats_admits kw x = true /\ tr = Give v :: rest.
Proof.
  simpl. destruct tr as [|[b|u] tr']; try discriminate.
  destruct u as [z|x|l]; simpl; try discriminate.
  destruct (floats_admits kw x) eqn:E; try discriminate.
  intros H; injection H as <- <-. now exists x.
Qed.

Lemma draw_integers_returned lo hi tr v rest :
  draw (st_integers lo hi) tr = Returned v rest ->
  exists z, v = VInt z /\ integers_admits lo hi z = true /\ tr = Give v :: rest.
Proof.
  simpl. destruct tr as [|[b|u] tr']; try discriminate.
  destruct u as [z|x|l]; simpl; try discriminate.
  destruct (integers_admits lo hi z) eqn:E; try discriminate.
  intros H; injection H as <- <-. now exists z.
Qed.

Section Unfold.

Variable apply_safety_factor :
  string -> safety_args -> res (num * num * option num).
Variable float_of : num -> Z -> res spec_float.

(** What [floats] does once the dtype selector has answered. *)
Lemma run_floats r d ds tr :
  run (floats apply_safety_factor float_of r) (Give (VDtypes (d :: ds)) :: tr) =
  match apply_safety_factor d (floats_safety_args r) with
  | Err e => Raised e
  | Ok (min_value, max_value, abs_smallest_val) =>
      match float_strategy float_of r d min_value max_value abs_smallest_val with
      | Err e => Raised e
      | Ok s => draw s tr
      end
  end.
Proof.
  unfold floats. simpl.
  destruct (apply_safety_factor d (floats_safety_args r)) as [[[mn mx] a]|e];
    simpl; [|reflexivity].
  destruct (float_strategy float_of r d mn mx a) as [s|e]; simpl;
    [|reflexivity].
  now destruct (draw s tr).
Qed.

(** What [ints] does once the dtype selector has answered. *)
Lemma run_ints r l tr :
  run (ints apply_safety_factor r) (Give (VDtypes l) :: tr) =
  match ints_scale r with
  | Some scale =>
      match l with
      | [] => Raised IndexError
      | d :: _ =>
          match apply_safety_factor d (ints_safety_args r scale) with
          | Err e => Raised e
          | Ok (min_value, max_value, _) =>
              draw (st_integers (Some min_value) (Some max_value)) tr
          end
      end
  | None => draw (st_integers (ik_min_value r) (ik_max_value r)) tr
  end.
Proof.
  unfold ints. simpl.
  destruct (ints_scale r) as [scale|].
  - destruct l as [|d ds]; simpl; [reflexivity|].
    destruct (apply_safety_factor d (ints_safety_args r scale))
      as [[[mn mx] a]|e]; simpl; [|reflexivity].
    apply (run_draw_ret (st_integers (Some mn) (Some mx)) tr).
  - apply (run_draw_ret (st_integers (ik_min_value r) (ik_max_value r)) tr).
Qed.

(** [number] hands the run to the branch the host selects. *)
Lemma run_number r first tr :
  run (number apply_safety_factor float_of r) (Pick first :: tr) =
  if first then run (ints apply_safety_factor (number_ints_kwargs r)) tr
  else run (floats apply_safety_factor float_of (number_floats_kwargs r)) tr.
Proof.
  unfold number. rewrite run_draw_ret. simpl. now destruct first.
Qed.

End Unfold.

(** ** A run depends on the answers it consumes, and on nothing else *)









(** ** The float strategy *)

Section FloatStrategy.

Variable float_of : num -> Z -> res spec_float.


Lemma floats_window_inv r d lo hi s :
  floats_window float_of r d lo hi = Ok s ->
  exists w x y,
    info_width d = Ok w /\ float_of lo w = Ok x /\ float_of hi w = Ok y /\
    s = st_floats (window_args r w x y).
Proof.
  unfold floats_window.
  destruct (info_width d) as [w|e] eqn:Hw; simpl; [|discriminate].
  destruct (float_of lo w) as [x|e] eqn:Hx; simpl; [|discriminate].
  destruct (float_of hi w) as [y|e] eqn:Hy; simpl; [|discriminate].
  intros H; injection H as <-. now exists w, x, y.
Qed.

(** The two shapes of the strategy [floats] draws from. *)
Lemma float_strategy_shape r d mn mx a s :
  float_strategy float_of r d mn mx (Some a) = Ok s ->
  exists w, info_width d = Ok w /\
    ((py_gt mn (py_neg a) || py_lt mx a = true /\
      exists lo hi,
        float_of mn w = Ok lo /\ float_of mx w = Ok hi /\
        s = st_floats (window_args r w lo hi))
     \/
     (py_gt mn (py_neg a) || py_lt mx a = false /\
      exists lo nlo plo hi,
        float_of mn w = Ok lo /\ float_of (py_neg a) w = Ok nlo /\
        float_of a w = Ok plo /\ float_of mx w = Ok hi /\
        s = st_one_of (st_floats (window_args r w lo nlo))
                      (st_floats (window_args r w plo hi)))).
Proof.
  unfold float_strategy.
  destruct (py_gt mn (py_neg a) || py_lt mx a) eqn:C.
  - intros H. apply floats_window_inv in H as (w & lo & hi & Hw & Hl & Hh & ->).
    exists w. split; [exact Hw|]. left. split; [reflexivity|].
    now exists lo, hi.
  - destruct (floats_window float_of r d mn (py_neg a)) as [below|e] eqn:B;
      simpl; [|discriminate].
    destruct (floats_window float_of r d a mx) as [above|e] eqn:A;
      simpl; [|discriminate].
    intros H; injection H as <-.
    apply floats_window_inv in B as (w & lo & nlo & Hw & Hl & Hn & ->).
    apply floats_window_inv in A as (w' & plo & hi & Hw' & Hp & Hh & ->).
    assert (w' = w) as -> by congruence.
    exists w. split; [exact Hw|]. right. split; [reflexivity|].
    now exists lo, nlo, plo, hi.
Qed.

(** Every value [floats] returns was admitted by one of the [st.floats]
    calls its strategy is made of. *)
Lemma float_strategy_returns r d mn mx a s tr v rest :
  float_strategy float_of r d mn mx (Some a) = Ok s ->
  draw s tr = Returned v rest ->
  exists kw x,
    In kw (float_draws s) /\ v = VFloat x /\ floats_admits kw x = true.
Proof.
  intros S D. apply float_strategy_shape in S as (w & _ & [(_ & S)|(_ & S)]).
  - destruct S as (lo & hi & _ & _ & ->).
    apply draw_floats_returned in D as (x & -> & Hx & _).
    exists (window_args r w lo hi), x. simpl. auto.
  - destruct S as (lo & nlo & plo & hi & _ & _ & _ & _ & ->).
    simpl in D. destruct tr as [|[first|u] tr']; try discriminate.
    destruct first; apply draw_floats_returned in D as (x & -> & Hx & _).
    + exists (window_args r w lo nlo), x. simpl. auto.
    + exists (window_args r w plo hi), x. simpl. auto.
Qed.

End FloatStrategy.

(** The closed interval of an [st.floats] call. *)
Definition in_window (kw : floats_args) (x : spec_float) : bool :=
  SFleb (fa_min_value kw) x && SFleb x (fa_max_value kw).

(** The contract of the float draw, clause by clause. *)
Lemma floats_admits_inv kw x :
  floats_admits kw x = true ->
  valid_binary prec64 emax64 x = true /\
  (is_nan x = true -> fa_allow_nan kw = true) /\
  (is_inf x = true -> fa_allow_infinity kw = true) /\
  (is_subnormal (fa_width kw) x = true -> fa_allow_subnormal kw = true) /\
  (is_nan x = false ->
     in_window kw x = true /\
     (fa_exclude_min kw = true -> SFeqb x (fa_min_value kw) = false) /\
     (fa_exclude_max kw = true -> SFeqb x (fa_max_value kw) = false)).
Proof.
  unfold floats_admits, in_window. intros H.
  apply andb_prop in H as [V H]. split; [exact V|].
  destruct (is_nan x) eqn:N.
  - destruct x; try discriminate. simpl. repeat split; congruence.
  - rewrite !andb_true_iff in H.
    destruct H as (((((I & S) & L) & U) & Emin) & Emax).
    split; [discriminate|]. split; [|split].
    + intros E. now rewrite E in I.
    + intros E. now rewrite E in S.
    + intros _. rewrite L, U. split; [reflexivity|]. split; intros E.
      * rewrite E in Emin. simpl in Emin. now apply negb_true_iff.
      * rewrite E in Emax. simpl in Emax. now apply negb_true_iff.
Qed.

Lemma floats_admits_in_window kw x :
  floats_admits kw x = true -> is_nan x = false -> in_window kw x = true.
Proof.
  intros H N. apply floats_admits_inv in H as (_ & _ & _ & _ & H).
  now apply H.
Qed.

(** *** The order of floats as an order on integer triples *)






(** ** Claims about [floats] *)


(** C1, amended: when the scaled window straddles the band ([mn <= -a] and
    [mx >= a]), no value [floats] returns lies strictly between the two band
    edges as they are handed to the host, that is [-a] and [a] cast to the
    dtype's width by [float_of]; where the cast leaves both edges unchanged,
    the value is not strictly inside [(-a, a)]. *)
Theorem floats_avoid_cast_band
    (apply_safety_factor : string -> safety_args -> res (num * num * option num))
    (float_of : num -> Z -> res spec_float)
    r d ds tr mn mx a w nlo plo x rest :
  apply_safety_factor d (floats_safety_args r) = Ok (mn, mx, Some a) ->
  py_le mn (py_neg a) = true -> py_ge mx a = true ->
  info_width d = Ok w ->
  float_of (py_neg a) w = Ok nlo -> float_of a w = Ok plo ->
  run (floats apply_safety_factor float_of r)
      (Give (VDtypes (d :: ds)) :: tr) = Returned (VFloat x) rest ->
  SFltb nlo x && SFltb x plo = false /\
  (py_neg a = NFloat nlo -> a = NFloat plo ->
   py_lt (py_neg a) (NFloat x) && py_lt (NFloat x) a = false).
Proof.
  intros S Lo Hi W Hn Hp R.
  assert (B : SFltb nlo x && SFltb x plo = false).
  { rewrite run_floats, S in R.
    destruct (float_strategy float_of r d mn mx (Some a)) as [s|e] eqn:E;
      [|discriminate].
    apply float_strategy_shape in E as (w' & W' & [(C & _)|(_ & E)]).
    - apply py_le_not_gt in Lo. unfold py_ge in Hi.
      apply py_le_not_gt in Hi. unfold py_gt in Hi.
      rewrite Lo, Hi in C. discriminate.
    - destruct E as (lo & nlo' & plo' & hi & _ & Hn' & Hp' & _ & ->).
      assert (w' = w) as -> by congruence.
      assert (nlo' = nlo) as -> by congruence.
      assert (plo' = plo) as -> by congruence.
      simpl in R. destruct tr as [|[first|u] tr']; try discriminate.
      destruct first;
        apply draw_floats_returned in R as (y & Y & A & _);
        injection Y as <-;
        (destruct (is_nan x) eqn:N; [now rewrite (SFltb_nan nlo x N)|]);
        apply floats_admits_in_window in A; trivial;
        unfold in_window in A; simpl in A;
        apply andb_prop in A as [A1 A2].
      + now rewrite (SFleb_not_ltb _ _ A2).
      + rewrite (SFleb_not_ltb _ _ A1). apply andb_false_r. }
  split; [exact B|].
  intros -> ->. exact B.
Qed.

(** C7: the five flags of a [floats] request reach every [st.floats] call
    of its strategy unchanged, in the single window and in both sub-windows,
    and a value [floats] returns is NaN, infinite or subnormal (at the width
    drawn at) only if the request allows it. *)
Theorem floats_flags_verbatim
    (apply_safety_factor : string -> safety_args -> res (num * num * option num))
    (float_of : num -> Z -> res spec_float)
    r d ds tr mn mx a :
  apply_safety_factor d (floats_safety_args r) = Ok (mn, mx, Some a) ->
  (forall s kw,
     float_strategy float_of r d mn mx (Some a) = Ok s ->
     In kw (float_draws s) ->
     fa_allow_nan kw = fk_allow_nan r /\
     fa_allow_infinity kw = fk_allow_inf r /\
     fa_allow_subnormal kw = fk_allow_subnormal r /\
     fa_exclude_min kw = fk_exclude_min r /\
     fa_exclude_max kw = fk_exclude_max r /\
     info_width d = Ok (fa_width kw)) /\
  (forall v rest,
     run (floats apply_safety_factor float_of r)
         (Give (VDtypes (d :: ds)) :: tr) = Returned v rest ->
     exists x w,
       v = VFloat x /\ info_width d = Ok w /\
       (is_nan x = true -> fk_allow_nan r = true) /\
       (is_inf x = true -> fk_allow_inf r = true) /\
       (is_subnormal w x = true -> fk_allow_subnormal r = true)).
Proof.
  intros S.
  assert (F : forall s kw,
            float_strategy float_of r d mn mx (Some a) = Ok s ->
            In kw (float_draws s) ->
            exists w lo hi, info_width d = Ok w /\ kw = window_args r w lo hi).
  { intros s kw E I.
    apply float_strategy_shape in E as (w & W & [(_ & E)|(_ & E)]).
    - destruct E as (lo & hi & _ & _ & ->). simpl in I.
      destruct I as [<-|[]]. now exists w, lo, hi.
    - destruct E as (lo & nlo & plo & hi & _ & _ & _ & _ & ->). simpl in I.
      destruct I as [<-|[<-|[]]]; [now exists w, lo, nlo|now exists w, plo, hi]. }
  split.
  - intros s kw E I. destruct (F s kw E I) as (w & lo & hi & W & ->).
    simpl. auto 10.
  - intros v rest R. rewrite run_floats, S in R.
    destruct (float_strategy float_of r d mn mx (Some a)) as [s|e] eqn:E;
      [|discriminate].
    destruct (float_strategy_returns _ _ _ _ _ _ _ E R) as (kw & x & I & -> & A).
    destruct (F s kw eq_refl I) as (w & lo & hi & W & ->).
    apply floats_admits_inv in A as (_ & An & Ai & As & _).
    exists x, w. auto.
Qed.

(** ** Evaluations on concrete requests *)

Module Examples.

(** The scaler and the cast the concrete runs are evaluated with. *)
Definition scaler := Scaler.apply_safety_factor Scaler.no_log_scale.
Definition cast := HostLib.float_of.

(** [floats(exclude_min=False)] *)
Definition floats_closed_min : floats_kwargs := {|
  fk_min_value := None;
  fk_max_value := None;
  fk_abs_smallest_val := None;
  fk_allow_nan := false;
  fk_allow_inf := false;
  fk_allow_subnormal := false;
  fk_exclude_min := false;
  fk_exclude_max := true;
  fk_large_abs_safety_factor := f1_1;
  fk_small_abs_safety_factor := f1_1;
  fk_safety_factor_scale := "linear"
|}.

(** [floats(min_value=1.0, max_value=2.0)] *)
Definition floats_one_two : floats_kwargs := {|
  fk_min_value := Some (Scaler.pyfloat 1 0);
  fk_max_value := Some (Scaler.pyfloat 2 0);
  fk_abs_smallest_val := None;
  fk_allow_nan := false;
  fk_allow_inf := false;
  fk_allow_subnormal := false;
  fk_exclude_min := true;
  fk_exclude_max := true;
  fk_large_abs_safety_factor := f1_1;
  fk_small_abs_safety_factor := f1_1;
  fk_safety_factor_scale := "linear"
|}.

(** What the scaling returns for float16 on unstated bounds:
    [-65504 / 1.1], [65504 / 1.1] and [2^-14 * 1.1]. *)
Definition f16_min : num := NFloat (S754_finite true 8184364734754443 (-37)).
Definition f16_max : num := NFloat (S754_finite false 8184364734754443 (-37)).
Definition f16_band : num := NFloat (S754_finite false 4953959590107546 (-66)).

(** [f16_band] cast to float16, 0x1.198p-14: below [f16_band], which is
    0x1.199999999999ap-14. *)
Definition f16_band_cast : spec_float :=
  S754_finite false 4952200371503104 (-66).

(** [f16_max] cast to float16: 59552. *)
Definition f16_max_cast : spec_float :=
  S754_finite false 8184764557164544 (-37).

(** The float [1.0]. *)
Definition one : spec_float := S754_finite false 4503599627370496 (-52).

End Examples.

(** C1, counterexample: [floats(exclude_min=False)] on float16.  The
    scaling returns the band magnitude [2^-14 * 1.1] and a window that
    straddles it; the host selects the upper sub-window, whose lower end is
    the magnitude cast to float16, and returns that end, which the request
    does not exclude.  The value returned is strictly inside the band. *)
Lemma floats_band_counterexample :
  Examples.scaler "float16" (floats_safety_args Examples.floats_closed_min) =
    Ok (Examples.f16_min, Examples.f16_max, Some Examples.f16_band) /\
  py_le Examples.f16_min (py_neg Examples.f16_band) = true /\
  py_ge Examples.f16_max Examples.f16_band = true /\
  py_is_zero Examples.f16_band = false /\
  run (floats Examples.scaler Examples.cast Examples.floats_closed_min)
      [Give (VDtypes ["float16"]); Pick false;
       Give (VFloat Examples.f16_band_cast)] =
    Returned (VFloat Examples.f16_band_cast) [] /\
  py_lt (py_neg Examples.f16_band) (NFloat Examples.f16_band_cast) &&
  py_lt (NFloat Examples.f16_band_cast) Examples.f16_band = true.
Proof. repeat split; vm_compute; reflexivity. Qed.

Lemma floats_avoid_cast_band_witness :
  SFltb (SFopp Examples.f16_band_cast) Examples.one &&
  SFltb Examples.one Examples.f16_band_cast = false /\
  (py_neg Examples.f16_band = NFloat (SFopp Examples.f16_band_cast) ->
   Examples.f16_band = NFloat Examples.f16_band_cast ->
   py_lt (py_neg Examples.f16_band) (NFloat Examples.one) &&
   py_lt (NFloat Examples.one) Examples.f16_band = false).
Proof.
  apply (@floats_avoid_cast_band Examples.scaler Examples.cast
           floats_defaults "float16" [] [Pick false; Give (VFloat Examples.one)]
           Examples.f16_min Examples.f16_max Examples.f16_band 16
           (SFopp Examples.f16_band_cast) Examples.f16_band_cast
           Examples.one []);
    vm_compute; reflexivity.
Defined.


Lemma floats_flags_verbatim_witness :
  exists x w,
    VFloat Examples.one = VFloat x /\ info_width "float16" = Ok w /\
    (is_nan x = true -> fk_allow_nan floats_defaults = true) /\
    (is_inf x = true -> fk_allow_inf floats_defaults = true) /\
    (is_subnormal w x = true -> fk_allow_subnormal floats_defaults = true).
Proof.
  apply (proj2 (@floats_flags_verbatim Examples.scaler Examples.cast
           floats_defaults "float16" []
           [Pick false; Give (VFloat Examples.one)]
           Examples.f16_min Examples.f16_max Examples.f16_band eq_refl)
         (VFloat Examples.one) []).
  vm_compute; reflexivity.
Defined.

(** ** Claims about [ints] and [number] *)

(** Both bounds of the request are unstated. *)
Definition unbounded (r : ints_kwargs) : bool :=
  match ik_min_value r, ik_max_value r with
  | None, None => true
  | _, _ => false
  end.

Lemma ints_scale_stated r m :
  ik_safety_factor_scale r = Some m ->
  ints_scale r = Some (if unbounded r then "linear" else m).
Proof.
  unfold ints_scale, unbounded. intros ->.
  now destruct (ik_min_value r), (ik_max_value r).
Qed.

Lemma ints_scale_unstated r :
  ik_safety_factor_scale r = None -> unbounded r = false ->
  ints_scale r = None.
Proof.
  unfold ints_scale, unbounded. intros ->.
  now destruct (ik_min_value r), (ik_max_value r).
Qed.

(** C6: with a stated scale mode, [ints] calls the scaling with its two
    bounds and its safety factor only (no band magnitude, no small factor),
    makes no choice between windows, and hands the run to one host integer
    draw over the two bounds returned, both inclusive; with no scale mode
    and at least one bound stated, the scaling is not called and the draw is
    over the bounds as the caller stated them. *)
Theorem ints_scaling_and_delegation
    (apply_safety_factor : string -> safety_args -> res (num * num * option num))
    r d ds tr :
  (forall m,
     ik_safety_factor_scale r = Some m ->
     run (ints apply_safety_factor r) (Give (VDtypes (d :: ds)) :: tr) =
     match
       apply_safety_factor d
         {| sa_min_value := ik_min_value r;
            sa_max_value := ik_max_value r;
            sa_abs_smallest_val := None;
            sa_small_abs_safety_factor := None;
            sa_large_abs_safety_factor := ik_safety_factor r;
            sa_safety_factor_scale := if unbounded r then "linear" else m |}
     with
     | Err e => Raised e
     | Ok (min_value, max_value, _) =>
         draw (st_integers (Some min_value) (Some max_value)) tr
     end) /\
  (ik_safety_factor_scale r = None -> unbounded r = false ->
   run (ints apply_safety_factor r) (Give (VDtypes (d :: ds)) :: tr) =
   draw (st_integers (ik_min_value r) (ik_max_value r)) tr) /\
  (forall lo hi z rest,
     draw (st_integers (Some lo) (Some hi)) (Give (VInt z) :: rest) =
     if py_le lo (NInt z) && py_le (NInt z) hi then Returned (VInt z) rest
     else Illegal).
Proof.
  split; [|split].
  - intros m M. rewrite run_ints, (ints_scale_stated r M). reflexivity.
  - intros M U. now rewrite run_ints, (ints_scale_unstated r M U).
  - reflexivity.
Qed.

(** C4, amended: a value [ints] returns is an integer inside the bounds
    handed to the host integer draw.  With a scale mode in force these are
    the bounds the scaling returned; with none they are the bounds the caller
    stated, and a side left unstated is unbounded: every integer on the
    stated side of the stated bound can be returned, whatever the dtype
    drawn.  A non-NaN value [floats] returns lies in the window of one of its
    [st.floats] calls. *)
Theorem ints_within_drawn_bounds
    (apply_safety_factor : string -> safety_args -> res (num * num * option num))
    (float_of : num -> Z -> res spec_float)
    r l tr :
  (forall v rest,
     run (ints apply_safety_factor r) (Give (VDtypes l) :: tr) =
       Returned v rest ->
     exists z, v = VInt z /\
       match ints_scale r with
       | None => integers_admits (ik_min_value r) (ik_max_value r) z = true
       | Some m =>
           exists d mn mx a,
             hd_error l = Some d /\
             apply_safety_factor d (ints_safety_args r m) = Ok (mn, mx, a) /\
             py_le mn (NInt z) = true /\ py_le (NInt z) mx = true
       end) /\
  (ints_scale r = None ->
   forall z,
     integers_admits (ik_min_value r) (ik_max_value r) z = true ->
     run (ints apply_safety_factor r) [Give (VDtypes l); Give (VInt z)] =
       Returned (VInt z) []) /\
  (forall rf d ds mn mx a s v rest,
     apply_safety_factor d (floats_safety_args rf) = Ok (mn, mx, Some a) ->
     float_strategy float_of rf d mn mx (Some a) = Ok s ->
     run (floats apply_safety_factor float_of rf)
         (Give (VDtypes (d :: ds)) :: tr) = Returned v rest ->
     exists kw x,
       In kw (float_draws s) /\ v = VFloat x /\
       (is_nan x = false -> in_window kw x = true)).
Proof.
  split; [|split].
  - intros v rest R. rewrite run_ints in R.
    destruct (ints_scale r) as [m|].
    + destruct l as [|d ds]; [discriminate|].
      destruct (apply_safety_factor d (ints_safety_args r m))
        as [[[mn mx] a]|e] eqn:S; [|discriminate].
      apply draw_integers_returned in R as (z & -> & A & _).
      exists z. split; [reflexivity|]. exists d, mn, mx, a.
      apply andb_prop in A as [A1 A2]. auto.
    + apply draw_integers_returned in R as (z & -> & A & _). now exists z.
  - intros N z A. rewrite run_ints, N. simpl. now rewrite A.
  - intros rf d ds mn mx a s v rest S E R.
    rewrite run_floats, S, E in R.
    destruct (float_strategy_returns _ _ _ _ _ _ _ E R) as (kw & x & I & -> & A).
    exists kw, x. split; [exact I|]. split; [reflexivity|].
    now apply floats_admits_in_window.
Qed.



(** ** Claims that depend on what the scaling returns *)

Section SpecScaler.

Variable log_scale : num -> num -> res num.

Local Abbreviation scaler := (Scaler.apply_safety_factor log_scale).

(** The scaling of an integer domain in linear mode on unstated bounds:
    the domain's two limits divided by the factor, clamped. *)
Lemma scaler_linear_unbounded d dom kw lo hi :
  Scaler.get_domain d = Ok dom ->
  Scaler.smallest_normal_magnitude dom = None ->
  sa_min_value kw = None -> sa_max_value kw = None ->
  sa_safety_factor_scale kw = "linear" ->
  Scaler.py_div (Scaler.representable_min dom)
                (sa_large_abs_safety_factor kw) = Ok lo ->
  Scaler.py_div (Scaler.representable_max dom)
                (sa_large_abs_safety_factor kw) = Ok hi ->
  py_gt (Scaler.clamp dom lo) (Scaler.clamp dom hi) = false ->
  scaler d kw = Ok (Scaler.clamp dom lo, Scaler.clamp dom hi, None).
Proof.
  intros D I Mn Mx L Hlo Hhi C.
  unfold scaler, Scaler.apply_safety_factor.
  rewrite D; cbn [bind]. rewrite Mn, Mx, L, I.
  unfold Scaler.adjust, Scaler.or_default.
  change ("linear" =? "linear")%string with true; cbn [bind].
  rewrite Hlo; cbn [bind]. rewrite Hhi; cbn [bind]. now rewrite C.
Qed.

(** C5: with both bounds unstated, [ints] works in linear mode whatever
    mode the request states, the scaling divides the two representable
    limits of the dtype drawn by the safety factor, and the run is one
    host integer draw over the scaled limits: every integer returned lies
    between them. *)
Theorem ints_unbounded_linear r d dom ds tr lo hi :
  ik_min_value r = None -> ik_max_value r = None ->
  Scaler.get_domain d = Ok dom ->
  Scaler.smallest_normal_magnitude dom = None ->
  Scaler.py_div (Scaler.representable_min dom) (ik_safety_factor r) = Ok lo ->
  Scaler.py_div (Scaler.representable_max dom) (ik_safety_factor r) = Ok hi ->
  py_gt (Scaler.clamp dom lo) (Scaler.clamp dom hi) = false ->
  ints_scale r = Some "linear" /\
  run (ints scaler r) (Give (VDtypes (d :: ds)) :: tr) =
    draw (st_integers (Some (Scaler.clamp dom lo))
                      (Some (Scaler.clamp dom hi))) tr /\
  (forall v rest,
     run (ints scaler r) (Give (VDtypes (d :: ds)) :: tr) = Returned v rest ->
     exists z, v = VInt z /\
       py_le (Scaler.clamp dom lo) (NInt z) = true /\
       py_le (NInt z) (Scaler.clamp dom hi) = true).
Proof.
  intros Mn Mx D I Hlo Hhi C.
  assert (L : ints_scale r = Some "linear")
    by (unfold ints_scale; now rewrite Mn, Mx).
  assert (R : run (ints scaler r) (Give (VDtypes (d :: ds)) :: tr) =
              draw (st_integers (Some (Scaler.clamp dom lo))
                                (Some (Scaler.clamp dom hi))) tr).
  { rewrite run_ints, L.
    now rewrite (@scaler_linear_unbounded d dom (ints_safety_args r "linear")
                   lo hi D I Mn Mx eq_refl Hlo Hhi C). }
  split; [exact L|]. split; [exact R|].
  intros v rest H. rewrite R in H.
  apply draw_integers_returned in H as (z & -> & A & _).
  apply andb_prop in A as [A1 A2]. now exists z.
Qed.

End SpecScaler.

(** *** The inverted request [min_value=10, max_value=5] *)

Definition floats_inverted : floats_kwargs := {|
  fk_min_value := Some (NInt 10);
  fk_max_value := Some (NInt 5);
  fk_abs_smallest_val := None;
  fk_allow_nan := false;
  fk_allow_inf := false;
  fk_allow_subnormal := false;
  fk_exclude_min := true;
  fk_exclude_max := true;
  fk_large_abs_safety_factor := f1_1;
  fk_small_abs_safety_factor := f1_1;
  fk_safety_factor_scale := "linear"
|}.

Definition ints_inverted (scale : option string) : ints_kwargs := {|
  ik_min_value := Some (NInt 10);
  ik_max_value := Some (NInt 5);
  ik_safety_factor := f1_1;
  ik_safety_factor_scale := scale
|}.

Definition number_inverted : number_kwargs := {|
  nk_min_value := Some (NInt 10);
  nk_max_value := Some (NInt 5);
  nk_large_abs_safety_factor := f1_1;
  nk_small_abs_safety_factor := f1_1;
  nk_safety_factor_scale := "linear"
|}.

Definition integer_dtypes : list string :=
  ["int8"; "int16"; "int32"; "int64"; "uint8"; "uint16"; "uint32"; "uint64"].

Definition float_dtypes : list string :=
  ["float16"; "bfloat16"; "float32"; "float64"].

Section Inverted.

Variable log_scale : num -> num -> res num.
Variable float_of : num -> Z -> res spec_float.

Local Abbreviation scaler := (Scaler.apply_safety_factor log_scale).

Lemma scaler_inverted_floats d :
  In d float_dtypes ->
  scaler d (floats_safety_args floats_inverted) = Err RangeError.
Proof.
  intros I. repeat (destruct I as [<-|I]; [vm_compute; reflexivity|]).
  destruct I.
Qed.

Lemma scaler_inverted_ints d :
  In d integer_dtypes ->
  scaler d (ints_safety_args (ints_inverted (Some "linear")) "linear") =
    Err RangeError.
Proof.
  intros I. repeat (destruct I as [<-|I]; [vm_compute; reflexivity|]).
  destruct I.
Qed.

Lemma no_integer_in_10_5 z :
  integers_admits (Some (NInt 10)) (Some (NInt 5)) z = false.
Proof.
  unfold integers_admits, py_le, py_compare.
  destruct (Z.compare_spec 10 z), (Z.compare_spec z 5);
    try reflexivity; lia.
Qed.

(** C3, amended: on the inverted request every generator first asks the
    host for a draw: the dtype selection ([number]: the selection of its
    branch, then the dtype selection of that branch).  Once the dtype is
    drawn, [floats], [ints] with a scale mode and both branches of
    [number] raise the RangeError of the scaling, before any value is
    drawn.  [ints] without a scale mode does not call the scaling and
    raises nothing: it hands the window 10 .. 5 to the host integer draw,
    which admits no integer. *)
Theorem inverted_request_raises_after_dtype_draw d ds tr :
  run (floats scaler float_of floats_inverted) [] =
    Blocked (st_get_dtypes "float" false) /\
  (In d float_dtypes ->
   run (floats scaler float_of floats_inverted)
       (Give (VDtypes (d :: ds)) :: tr) = Raised RangeError) /\
  run (ints scaler (ints_inverted (Some "linear"))) [] =
    Blocked (st_get_dtypes "integer" false) /\
  (In d integer_dtypes ->
   run (ints scaler (ints_inverted (Some "linear")))
       (Give (VDtypes (d :: ds)) :: tr) = Raised RangeError) /\
  run (ints scaler (ints_inverted None)) (Give (VDtypes (d :: ds)) :: tr) =
    draw (st_integers (Some (NInt 10)) (Some (NInt 5))) tr /\
  (forall z, integers_admits (Some (NInt 10)) (Some (NInt 5)) z = false) /\
  run (number scaler float_of number_inverted) [Pick true] =
    Blocked (st_get_dtypes "integer" false) /\
  run (number scaler float_of number_inverted) [Pick false] =
    Blocked (st_get_dtypes "float" false) /\
  (In d integer_dtypes ->
   run (number scaler float_of number_inverted)
       (Pick true :: Give (VDtypes (d :: ds)) :: tr) = Raised RangeError) /\
  (In d float_dtypes ->
   run (number scaler float_of number_inverted)
       (Pick false :: Give (VDtypes (d :: ds)) :: tr) = Raised RangeError).
Proof.
  repeat split; try reflexivity.
  - intros I. now rewrite run_floats, (scaler_inverted_floats I).
  - intros I. rewrite run_ints.
    change (ints_scale (ints_inverted (Some "linear"))) with (Some "linear").
    cbv beta iota. now rewrite (scaler_inverted_ints I).
  - now rewrite run_ints.
  - apply no_integer_in_10_5.
  - intros I. rewrite run_number, run_ints.
    change (number_ints_kwargs number_inverted)
      with (ints_inverted (Some "linear")).
    change (ints_scale (ints_inverted (Some "linear"))) with (Some "linear").
    cbv beta iota. now rewrite (scaler_inverted_ints I).
  - intros I. rewrite run_number, run_floats.
    change (number_floats_kwargs number_inverted) with floats_inverted.
    now rewrite (scaler_inverted_floats I).
Qed.

End Inverted.

(** ** Concrete runs of [ints] and [number] *)

(** [ints(min_value=0)] *)
Definition ints_from_zero : ints_kwargs := {|
  ik_min_value := Some (NInt 0);
  ik_max_value := None;
  ik_safety_factor := f1_1;
  ik_safety_factor_scale := None
|}.

(** [-128 / 1.1] and [127 / 1.1] *)
Definition int8_scaled_min : num :=
  NFloat (S754_finite true 8188362958855447 (-46)).
Definition int8_scaled_max : num :=
  NFloat (S754_finite false 8124391373239388 (-46)).

(** C4, counterexample: [ints(min_value=0)] with the dtype int8 drawn.  No
    scale mode is in force, the host integer draw is over 0 .. None, and 1000
    is returned: it is above 127, the largest int8. *)
Lemma ints_one_bound_counterexample :
  run (ints Examples.scaler ints_from_zero)
      [Give (VDtypes ["int8"]); Give (VInt 1000)] = Returned (VInt 1000) [] /\
  Scaler.get_domain "int8" = Ok (Scaler.int_domain "int8" 8 true) /\
  Scaler.representable_max (Scaler.int_domain "int8" 8 true) = NInt 127 /\
  py_le (NInt 1000) (NInt 127) = false.
Proof. repeat split; vm_compute; reflexivity. Qed.

(** [floats(min_value=1.0, max_value=2.0)] on float64 returns 0.9375: the
    scaling moved the lower bound to [1.0 / 1.1], below the bound stated. *)
Lemma floats_below_stated_bound :
  run (floats Examples.scaler Examples.cast Examples.floats_one_two)
      [Give (VDtypes ["float64"]);
       Give (VFloat (S754_finite false 8444249301319680 (-53)))] =
    Returned (VFloat (S754_finite false 8444249301319680 (-53))) [] /\
  py_lt (NFloat (S754_finite false 8444249301319680 (-53)))
        (Scaler.pyfloat 1 0) = true.
Proof. split; vm_compute; reflexivity. Qed.

(** C3, counterexample: on the inverted request nothing is raised before
    the host is asked for a draw.  [floats] and [ints] wait for the dtype
    selection, and [ints] without a scale mode, once the dtype is drawn,
    waits for the host integer draw over 10 .. 5. *)
Lemma inverted_request_draws_first :
  run (floats Examples.scaler Examples.cast floats_inverted) [] =
    Blocked (st_get_dtypes "float" false) /\
  run (ints Examples.scaler (ints_inverted None)) [] =
    Blocked (st_get_dtypes "integer" false) /\
  run (ints Examples.scaler (ints_inverted None)) [Give (VDtypes ["int8"])] =
    Blocked (st_integers (Some (NInt 10)) (Some (NInt 5))) /\
  run (floats Examples.scaler Examples.cast floats_inverted) [] <>
    Raised RangeError /\
  run (ints Examples.scaler (ints_inverted None)) [Give (VDtypes ["int8"])] <>
    Raised RangeError.
Proof. repeat split; try reflexivity; discriminate. Qed.

Lemma inverted_request_witness :
  run (floats Examples.scaler Examples.cast floats_inverted)
      [Give (VDtypes ["float32"])] = Raised RangeError /\
  run (number Examples.scaler Examples.cast number_inverted)
      [Pick true; Give (VDtypes ["int64"])] = Raised RangeError.
Proof.
  pose proof (@inverted_request_raises_after_dtype_draw Scaler.no_log_scale
                Examples.cast "float32" [] []) as (_ & F & _).
  pose proof (@inverted_request_raises_after_dtype_draw Scaler.no_log_scale
                Examples.cast "int64" [] []) as (_ & _ & _ & _ & _ & _ & _ & _ & N & _).
  split.
  - apply F. vm_compute. tauto.
  - apply N. vm_compute. tauto.
Defined.

Lemma ints_within_drawn_bounds_witness :
  run (ints Examples.scaler ints_from_zero)
      [Give (VDtypes ["int8"]); Give (VInt 1000)] = Returned (VInt 1000) [].
Proof.
  apply (proj1 (proj2 (@ints_within_drawn_bounds Examples.scaler Examples.cast
           ints_from_zero ["int8"] [])) eq_refl 1000 eq_refl).
Defined.

Lemma ints_unbounded_linear_witness :
  ints_scale ints_defaults = Some "linear" /\
  run (ints Examples.scaler ints_defaults)
      [Give (VDtypes ["int8"]); Give (VInt 5)] =
    draw (st_integers (Some int8_scaled_min) (Some int8_scaled_max))
         [Give (VInt 5)].
Proof.
  pose proof (@ints_unbounded_linear Scaler.no_log_scale ints_defaults "int8"
                (Scaler.int_domain "int8" 8 true) [] [Give (VInt 5)]
                int8_scaled_min int8_scaled_max
                eq_refl eq_refl eq_refl eq_refl eq_refl eq_refl eq_refl)
    as (L & R & _).
  split; [exact L | exact R].
Defined.


Lemma ints_scaling_and_delegation_witness :
  run (ints Examples.scaler ints_from_zero)
      [Give (VDtypes ["int8"]); Give (VInt 7)] =
    draw (st_integers (Some (NInt 0)) None) [Give (VInt 7)].
Proof.
  apply (proj1 (proj2 (@ints_scaling_and_delegation Examples.scaler
           ints_from_zero "int8" [] [Give (VInt 7)])) eq_refl eq_refl).
Defined.

(** * Further properties of the generators *)

(** ** Shared lemmas *)

Lemma SFleb_neq_ltb (a x : spec_float) :
  SFleb a x = true -> SFeqb x a = false -> SFltb a x = true.
Proof.
  unfold SFleb, SFeqb, SFltb. rewrite (SFcompare_antisym a x).
  destruct (SFcompare a x) as [[]|]; simpl; congruence.
Qed.

Lemma SFltb_not_leb (a x : spec_float) :
  SFltb a x = true -> SFleb x a = false.
Proof.
  unfold SFleb, SFltb. rewrite (SFcompare_antisym a x).
  destruct (SFcompare a x) as [[]|]; simpl; congruence.
Qed.

Lemma SFleb_nan (x y : spec_float) : is_nan y = true -> SFleb x y = false.
Proof. destruct y; try discriminate. now destruct x. Qed.

(** The dtypes [floats_info] has an entry for, each with its width. *)
Lemma info_width_inv d w :
  info_width d = Ok w ->
  (d = "float16" /\ w = 16) \/ (d = "bfloat16" /\ w = 32) \/
  (d = "float32" /\ w = 32) \/ (d = "float64" /\ w = 64).
Proof.
  unfold info_width, floats_info, getitem.
  destruct (String.eqb_spec "float16" d) as [<-|_];
    [intros H; injection H as <-; auto|].
  destruct (String.eqb_spec "bfloat16" d) as [<-|_];
    [intros H; injection H as <-; auto|].
  destruct (String.eqb_spec "float32" d) as [<-|_];
    [intros H; injection H as <-; auto|].
  destruct (String.eqb_spec "float64" d) as [<-|_];
    [intros H; injection H as <-; auto 6|].
  discriminate.
Qed.


Section Inversion.

Variable apply_safety_factor :
  string -> safety_args -> res (num * num * option num).
Variable float_of : num -> Z -> res spec_float.

(** A draw from the strategy of [floats] that returns consumed one float
    answer, after one selection when the strategy is split. *)
Lemma float_strategy_draw r d mn mx a s tr v rest :
  float_strategy float_of r d mn mx (Some a) = Ok s ->
  draw s tr = Returned v rest ->
  exists kw x,
    In kw (float_draws s) /\ v = VFloat x /\ floats_admits kw x = true /\
    (tr = Give (VFloat x) :: rest \/
     exists first, tr = Pick first :: Give (VFloat x) :: rest).
Proof.
  intros S D. apply float_strategy_shape in S as (w & _ & [(_ & S)|(_ & S)]).
  - destruct S as (lo & hi & _ & _ & ->).
    apply draw_floats_returned in D as (x & -> & Hx & ->).
    exists (window_args r w lo hi), x. simpl. auto.
  - destruct S as (lo & nlo & plo & hi & _ & _ & _ & _ & ->).
    simpl in D. destruct tr as [|[first|u] tr']; try discriminate.
    destruct first; apply draw_floats_returned in D as (x & -> & Hx & ->).
    + exists (window_args r w lo nlo), x. simpl. eauto 8.
    + exists (window_args r w plo hi), x. simpl. eauto 8.
Qed.

(** A run of [floats] that returns went through all its steps. *)
Lemma run_floats_inv r tr v rest :
  run (floats apply_safety_factor float_of r) tr = Returned v rest ->
  exists d ds tr' mn mx a s,
    tr = Give (VDtypes (d :: ds)) :: tr' /\
    apply_safety_factor d (floats_safety_args r) = Ok (mn, mx, Some a) /\
    float_strategy float_of r d mn mx (Some a) = Ok s /\
    draw s tr' = Returned v rest.
Proof.
  destruct tr as [|[first|[z|x|[|d ds]]] tr']; try discriminate.
  rewrite run_floats.
  destruct (apply_safety_factor d (floats_safety_args r))
    as [[[mn mx] [a|]]|e] eqn:S; try discriminate.
  destruct (float_strategy float_of r d mn mx (Some a)) as [s|e] eqn:E;
    [|discriminate].
  intros D. now exists d, ds, tr', mn, mx, a, s.
Qed.

(** A run of [ints] that returns ends with the host integer draw. *)
Lemma run_ints_inv r tr v rest :
  run (ints apply_safety_factor r) tr = Returned v rest ->
  exists l lo hi z,
    tr = Give (VDtypes l) :: Give (VInt z) :: rest /\ v = VInt z /\
    integers_admits lo hi z = true /\
    match ints_scale r with
    | None => lo = ik_min_value r /\ hi = ik_max_value r
    | Some m =>
        exists d mn mx a,
          hd_error l = Some d /\
          apply_safety_factor d (ints_safety_args r m) = Ok (mn, mx, a) /\
          lo = Some mn /\ hi = Some mx
    end.
Proof.
  destruct tr as [|[first|[z|x|l]] tr']; try discriminate.
  rewrite run_ints. destruct (ints_scale r) as [m|].
  - destruct l as [|d ds]; [discriminate|].
    destruct (apply_safety_factor d (ints_safety_args r m))
      as [[[mn mx] a]|e] eqn:S; [|discriminate].
    intros D. apply draw_integers_returned in D as (z & -> & A & ->).
    exists (d :: ds), (Some mn), (Some mx), z.
    repeat split; trivial. now exists d, mn, mx, a.
  - intros D. apply draw_integers_returned in D as (z & -> & A & ->).
    now exists l, (ik_min_value r), (ik_max_value r), z.
Qed.

End Inversion.

(** ** What a returning run consumed and returned *)

(** X1: a run of [floats] that returns consumed the dtype selection, at
    most one selection between sub-windows and exactly one float answer, and
    returns that float as the host gave it: nothing is applied to it. *)
Theorem floats_returns_the_draw
    (apply_safety_factor : string -> safety_args -> res (num * num * option num))
    (float_of : num -> Z -> res spec_float)
    r tr v rest :
  run (floats apply_safety_factor float_of r) tr = Returned v rest ->
  exists d ds x,
    v = VFloat x /\
    (tr = Give (VDtypes (d :: ds)) :: Give (VFloat x) :: rest \/
     exists first,
       tr = Give (VDtypes (d :: ds)) :: Pick first :: Give (VFloat x) :: rest).
Proof.
  intros R.
  apply run_floats_inv in R as (d & ds & tr' & mn & mx & a & s & -> & _ & E & D).
  destruct (@float_strategy_draw _ _ _ _ _ _ _ _ _ _ E D)
    as (kw & x & _ & -> & _ & T).
  exists d, ds, x. split; [reflexivity|].
  destruct T as [->|(first & ->)]; [now left|right; now exists first].
Qed.

(** X2: a run of [ints] that returns consumed the dtype selection and
    exactly one integer answer, and returns that integer as the host gave
    it. *)
Theorem ints_returns_the_draw
    (apply_safety_factor : string -> safety_args -> res (num * num * option num))
    r tr v rest :
  run (ints apply_safety_factor r) tr = Returned v rest ->
  exists l z, v = VInt z /\ tr = Give (VDtypes l) :: Give (VInt z) :: rest.
Proof.
  intros R. apply run_ints_inv in R as (l & lo & hi & z & -> & -> & _).
  now exists l, z.
Qed.

(** X3: [number] leaves the flags of [floats] at their defaults, so a value
    it returns is an integer, or a float that is not NaN, not infinite and
    not subnormal at the width of the dtype drawn. *)
Theorem number_returns_int_or_plain_float
    (apply_safety_factor : string -> safety_args -> res (num * num * option num))
    (float_of : num -> Z -> res spec_float)
    r tr v rest :
  run (number apply_safety_factor float_of r) tr = Returned v rest ->
  (exists z, v = VInt z) \/
  (exists x d ds tr' w,
     v = VFloat x /\
     tr = Pick false :: Give (VDtypes (d :: ds)) :: tr' /\
     info_width d = Ok w /\
     is_nan x = false /\ is_inf x = false /\ is_subnormal w x = false).
Proof.
  destruct tr as [|[first|u] tr0]; try discriminate.
  rewrite run_number. destruct first; intros R.
  - left. apply run_ints_inv in R as (l & lo & hi & z & _ & -> & _).
    now exists z.
  - right.
    apply run_floats_inv in R as (d & ds & tr' & mn & mx & a & s & -> & _ & E & D).
    destruct (float_strategy_returns _ _ _ _ _ _ _ E D) as (kw & x & I & -> & A).
    assert (K : exists w lo hi,
               info_width d = Ok w /\
               kw = window_args (number_floats_kwargs r) w lo hi).
    { apply float_strategy_shape in E as (w & W & [(_ & E)|(_ & E)]).
      - destruct E as (lo & hi & _ & _ & ->). simpl in I.
        destruct I as [<-|[]]. now exists w, lo, hi.
      - destruct E as (lo & nlo & plo & hi & _ & _ & _ & _ & ->). simpl in I.
        destruct I as [<-|[<-|[]]];
          [now exists w, lo, nlo|now exists w, plo, hi]. }
    destruct K as (w & lo & hi & W & ->).
    apply floats_admits_inv in A as (_ & An & Ai & As & _).
    simpl in An, Ai, As.
    exists x, d, ds, tr', w. repeat split; trivial.
    + destruct (is_nan x); [now specialize (An eq_refl)|reflexivity].
    + destruct (is_inf x); [now specialize (Ai eq_refl)|reflexivity].
    + destruct (is_subnormal w x); [now specialize (As eq_refl)|reflexivity].
Qed.

(** ** Excluded ends *)

(** X4: a non-NaN value [floats] returns lies in the window of one of the
    [st.floats] calls of its strategy, strictly above the window's lower end
    when the request excludes the minimum and strictly below its upper end
    when the request excludes the maximum. *)
Theorem floats_strict_at_excluded_ends
    (apply_safety_factor : string -> safety_args -> res (num * num * option num))
    (float_of : num -> Z -> res spec_float)
    r tr x rest :
  run (floats apply_safety_factor float_of r) tr = Returned (VFloat x) rest ->
  is_nan x = false ->
  exists d ds tr' mn mx a s kw,
    tr = Give (VDtypes (d :: ds)) :: tr' /\
    apply_safety_factor d (floats_safety_args r) = Ok (mn, mx, Some a) /\
    float_strategy float_of r d mn mx (Some a) = Ok s /\
    In kw (float_draws s) /\
    in_window kw x = true /\
    (fk_exclude_min r = true -> SFltb (fa_min_value kw) x = true) /\
    (fk_exclude_max r = true -> SFltb x (fa_max_value kw) = true).
Proof.
  intros R N.
  apply run_floats_inv in R as (d & ds & tr' & mn & mx & a & s & -> & S & E & D).
  destruct (float_strategy_returns _ _ _ _ _ _ _ E D) as (kw & y & I & Y & A).
  injection Y as <-.
  assert (F : fa_exclude_min kw = fk_exclude_min r /\
              fa_exclude_max kw = fk_exclude_max r).
  { pose proof E as E'.
    apply float_strategy_shape in E' as (w & _ & [(_ & E')|(_ & E')]).
    - destruct E' as (lo & hi & _ & _ & ->). simpl in I.
      destruct I as [<-|[]]. now split.
    - destruct E' as (lo & nlo & plo & hi & _ & _ & _ & _ & ->). simpl in I.
      destruct I as [<-|[<-|[]]]; now split. }
  destruct F as [Fmin Fmax].
  apply floats_admits_inv in A as (_ & _ & _ & _ & A).
  destruct (A N) as (W & Emin & Emax).
  exists d, ds, tr', mn, mx, a, s, kw. repeat split; trivial.
  - intros X. unfold in_window in W. apply andb_prop in W as [W1 _].
    apply SFleb_neq_ltb; [exact W1|]. apply Emin. congruence.
  - intros X. unfold in_window in W. apply andb_prop in W as [_ W2].
    unfold SFltb. unfold SFleb in W2. unfold SFeqb in Emax.
    specialize (Emax (eq_trans Fmax X)).
    destruct (SFcompare x (fa_max_value kw)) as [[]|]; congruence.
Qed.

(** X5: when the scaled window straddles the band and the request excludes
    both ends (the default), no value [floats] returns lies between the two
    band edges handed to the host, the edges themselves included. *)
Theorem floats_exclusive_ends_avoid_closed_band
    (apply_safety_factor : string -> safety_args -> res (num * num * option num))
    (float_of : num -> Z -> res spec_float)
    r d ds tr mn mx a w nlo plo x rest :
  apply_safety_factor d (floats_safety_args r) = Ok (mn, mx, Some a) ->
  py_le mn (py_neg a) = true -> py_ge mx a = true ->
  info_width d = Ok w ->
  float_of (py_neg a) w = Ok nlo -> float_of a w = Ok plo ->
  fk_exclude_min r = true -> fk_exclude_max r = true ->
  run (floats apply_safety_factor float_of r)
      (Give (VDtypes (d :: ds)) :: tr) = Returned (VFloat x) rest ->
  SFleb nlo x && SFleb x plo = false.
Proof.
  intros S Lo Hi W Hn Hp Xmin Xmax R.
  rewrite run_floats, S in R.
  destruct (float_strategy float_of r d mn mx (Some a)) as [s|e] eqn:E;
    [|discriminate].
  apply float_strategy_shape in E as (w' & W' & [(C & _)|(_ & E)]).
  - apply py_le_not_gt in Lo. unfold py_ge in Hi.
    apply py_le_not_gt in Hi. unfold py_gt in Hi.
    rewrite Lo, Hi in C. discriminate.
  - destruct E as (lo & nlo' & plo' & hi & _ & Hn' & Hp' & _ & ->).
    assert (w' = w) as -> by congruence.
    assert (nlo' = nlo) as -> by congruence.
    assert (plo' = plo) as -> by congruence.
    simpl in R. destruct tr as [|[first|u] tr']; try discriminate.
    destruct (is_nan x) eqn:N; [now rewrite (SFleb_nan nlo x N)|].
    destruct first;
      apply draw_floats_returned in R as (y & Y & A & _);
      injection Y as <-;
      apply floats_admits_inv in A as (_ & _ & _ & _ & A);
      destruct (A N) as (I & Emin & Emax);
      unfold in_window in I; simpl in *;
      apply andb_prop in I as [I1 I2].
    + assert (L : SFltb x nlo = true).
      { unfold SFltb. unfold SFleb in I2. specialize (Emax Xmax).
        unfold SFeqb in Emax.
        destruct (SFcompare x nlo) as [[]|]; congruence. }
      now rewrite (SFltb_not_leb _ _ L).
    + assert (L : SFltb plo x = true)
        by (apply SFleb_neq_ltb; [exact I1|now apply Emin]).
      rewrite (SFltb_not_leb _ _ L). apply andb_false_r.
Qed.

(** ** The dtype and its width *)

(** X6: every [st.floats] call of the strategy of [floats] is made for one
    of the four dtypes of [floats_info], at the width the table gives it:
    16 for float16, 32 for bfloat16 and float32, 64 for float64. *)
Theorem floats_draws_at_table_width
    (float_of : num -> Z -> res spec_float)
    r d mn mx a s kw :
  float_strategy float_of r d mn mx a = Ok s ->
  In kw (float_draws s) ->
  (d = "float16" /\ fa_width kw = 16) \/
  (d = "bfloat16" /\ fa_width kw = 32) \/
  (d = "float32" /\ fa_width kw = 32) \/
  (d = "float64" /\ fa_width kw = 64).
Proof.
  intros E I. destruct a as [a|]; [|discriminate].
  apply float_strategy_shape in E as (w & W & [(_ & E)|(_ & E)]).
  - destruct E as (lo & hi & _ & _ & ->). simpl in I.
    destruct I as [<-|[]]. simpl. now apply info_width_inv.
  - destruct E as (lo & nlo & plo & hi & _ & _ & _ & _ & ->). simpl in I.
    destruct I as [<-|[<-|[]]]; simpl; now apply info_width_inv.
Qed.


(** X10: the dtype enters the strategy of [floats] through its width only:
    two dtypes with the same width in [floats_info], as bfloat16 and float32
    are, give the same strategy on the same scaled window. *)
Theorem float_strategy_depends_on_width
    (float_of : num -> Z -> res spec_float)
    r d1 d2 mn mx a :
  info_width d1 = info_width d2 ->
  float_strategy float_of r d1 mn mx a = float_strategy float_of r d2 mn mx a.
Proof.
  intros W. destruct a as [a|]; [|reflexivity].
  unfold float_strategy, floats_window. now rewrite W.
Qed.

(** ** Exceptions of [floats] and [ints] *)

(** X8: [floats] indexes the dtype list before it calls the scaling, so an
    empty list is an IndexError whatever the scaling does; an exception of
    the scaling is raised by [floats] unchanged; and a band magnitude of
    None makes the comparison of line 96 a TypeError.  In the three cases no
    value is drawn: the answers left are not consulted. *)
Theorem floats_errors_before_strategy
    (apply_safety_factor : string -> safety_args -> res (num * num * option num))
    (float_of : num -> Z -> res spec_float)
    r tr :
  run (floats apply_safety_factor float_of r) (Give (VDtypes []) :: tr) =
    Raised IndexError /\
  (forall d ds e,
     apply_safety_factor d (floats_safety_args r) = Err e ->
     run (floats apply_safety_factor float_of r)
         (Give (VDtypes (d :: ds)) :: tr) = Raised e) /\
  (forall d ds mn mx,
     apply_safety_factor d (floats_safety_args r) = Ok (mn, mx, None) ->
     run (floats apply_safety_factor float_of r)
         (Give (VDtypes (d :: ds)) :: tr) = Raised TypeError).
Proof.
  split; [reflexivity|]. split.
  - intros d ds e S. now rewrite run_floats, S.
  - intros d ds mn mx S. now rewrite run_floats, S.
Qed.

(** X11: the lower bound of the window is cast first in both branches of
    [floats]: when [float_of] fails on it, [floats] raises that exception,
    whether or not the window is split and whatever the other bounds. *)
Theorem floats_lower_cast_error_first
    (apply_safety_factor : string -> safety_args -> res (num * num * option num))
    (float_of : num -> Z -> res spec_float)
    r d ds tr mn mx a w e :
  apply_safety_factor d (floats_safety_args r) = Ok (mn, mx, Some a) ->
  info_width d = Ok w ->
  float_of mn w = Err e ->
  run (floats apply_safety_factor float_of r)
      (Give (VDtypes (d :: ds)) :: tr) = Raised e.
Proof.
  intros S W C. rewrite run_floats, S.
  assert (F : forall hi, floats_window float_of r d mn hi = Err e).
  { intros hi. unfold floats_window. rewrite W. simpl. now rewrite C. }
  unfold float_strategy.
  destruct (py_gt mn (py_neg a) || py_lt mx a); now rewrite F.
Qed.

(** X9: [ints] indexes the dtype list only when a scale mode is in force.
    Then an empty list is an IndexError; with no scale mode the list drawn,
    empty or not, has no influence: the run is the host integer draw over
    the caller's bounds. *)
Theorem ints_dtype_list_edge
    (apply_safety_factor : string -> safety_args -> res (num * num * option num))
    r tr :
  (forall m, ints_scale r = Some m ->
     run (ints apply_safety_factor r) (Give (VDtypes []) :: tr) =
       Raised IndexError) /\
  (ints_scale r = None ->
   forall l,
     run (ints apply_safety_factor r) (Give (VDtypes l) :: tr) =
       draw (st_integers (ik_min_value r) (ik_max_value r)) tr).
Proof.
  split.
  - intros m M. now rewrite run_ints, M.
  - intros M l. now rewrite run_ints, M.
Qed.

(** ** Concrete runs for the further properties *)

(** A scaling that returns the same window and band magnitude for every
    dtype. *)
Definition fixed_scaler (mn mx a : num)
    : string -> safety_args -> res (num * num * option num) :=
  fun _ _ => Ok (mn, mx, Some a).

(** The answers of the host in a run of [floats()] on float16 that returns
    1.0 from the upper sub-window. *)
Definition f16_upper_run : list answer :=
  [Give (VDtypes ["float16"]); Pick false; Give (VFloat Examples.one)].

Lemma floats_returns_the_draw_witness :
  exists d ds x,
    VFloat Examples.one = VFloat x /\
    (f16_upper_run = Give (VDtypes (d :: ds)) :: Give (VFloat x) :: [] \/
     exists first,
       f16_upper_run =
         Give (VDtypes (d :: ds)) :: Pick first :: Give (VFloat x) :: []).
Proof.
  apply (@floats_returns_the_draw Examples.scaler Examples.cast
           floats_defaults f16_upper_run (VFloat Examples.one) []).
  vm_compute; reflexivity.
Defined.

Lemma ints_returns_the_draw_witness :
  exists l z,
    VInt 7 = VInt z /\
    [Give (VDtypes ["int8"]); Give (VInt 7)] =
      Give (VDtypes l) :: Give (VInt z) :: [].
Proof.
  apply (@ints_returns_the_draw Examples.scaler ints_from_zero
           [Give (VDtypes ["int8"]); Give (VInt 7)] (VInt 7) []).
  vm_compute; reflexivity.
Defined.

Lemma number_returns_int_or_plain_float_witness :
  (exists z, VFloat Examples.one = VInt z) \/
  (exists x d ds tr' w,
     VFloat Examples.one = VFloat x /\
     Pick false :: f16_upper_run = Pick false :: Give (VDtypes (d :: ds)) :: tr' /\
     info_width d = Ok w /\
     is_nan x = false /\ is_inf x = false /\ is_subnormal w x = false).
Proof.
  apply (@number_returns_int_or_plain_float Examples.scaler Examples.cast
           number_defaults (Pick false :: f16_upper_run)
           (VFloat Examples.one) []).
  vm_compute; reflexivity.
Defined.

Lemma floats_strict_at_excluded_ends_witness :
  exists d ds tr' mn mx a s kw,
    f16_upper_run = Give (VDtypes (d :: ds)) :: tr' /\
    Examples.scaler d (floats_safety_args floats_defaults) =
      Ok (mn, mx, Some a) /\
    float_strategy Examples.cast floats_defaults d mn mx (Some a) = Ok s /\
    In kw (float_draws s) /\
    in_window kw Examples.one = true /\
    (fk_exclude_min floats_defaults = true ->
     SFltb (fa_min_value kw) Examples.one = true) /\
    (fk_exclude_max floats_defaults = true ->
     SFltb Examples.one (fa_max_value kw) = true).
Proof.
  apply (@floats_strict_at_excluded_ends Examples.scaler Examples.cast
           floats_defaults f16_upper_run Examples.one []);
    vm_compute; reflexivity.
Defined.

Lemma floats_exclusive_ends_avoid_closed_band_witness :
  SFleb (SFopp Examples.f16_band_cast) Examples.one &&
  SFleb Examples.one Examples.f16_band_cast = false.
Proof.
  apply (@floats_exclusive_ends_avoid_closed_band Examples.scaler Examples.cast
           floats_defaults "float16" [] [Pick false; Give (VFloat Examples.one)]
           Examples.f16_min Examples.f16_max Examples.f16_band 16
           (SFopp Examples.f16_band_cast) Examples.f16_band_cast
           Examples.one []);
    vm_compute; reflexivity.
Defined.

Lemma floats_draws_at_table_width_witness :
  ("float16" = "float16" /\ 16 = 16) \/
  ("float16" = "bfloat16" /\ 16 = 32) \/
  ("float16" = "float32" /\ 16 = 32) \/
  ("float16" = "float64" /\ 16 = 64).
Proof.
  apply (@floats_draws_at_table_width Examples.cast floats_defaults "float16"
           Examples.f16_min Examples.f16_max (Some Examples.f16_band)
           (st_one_of
              (st_floats (window_args floats_defaults 16
                            (SFopp Examples.f16_max_cast)
                            (SFopp Examples.f16_band_cast)))
              (st_floats (window_args floats_defaults 16
                            Examples.f16_band_cast Examples.f16_max_cast)))
           (window_args floats_defaults 16
              Examples.f16_band_cast Examples.f16_max_cast)).
  - vm_compute; reflexivity.
  - simpl. auto.
Defined.


Lemma float_strategy_depends_on_width_witness :
  float_strategy Examples.cast floats_defaults "bfloat16"
    Examples.f16_min Examples.f16_max (Some Examples.f16_band) =
  float_strategy Examples.cast floats_defaults "float32"
    Examples.f16_min Examples.f16_max (Some Examples.f16_band).
Proof.
  apply (@float_strategy_depends_on_width Examples.cast floats_defaults
           "bfloat16" "float32"). reflexivity.
Defined.

Lemma floats_lower_cast_error_first_witness :
  run (floats (fixed_scaler (Scaler.pyfloat (- 10 ^ 10) 0)
                            (Scaler.pyfloat (10 ^ 10) 0) Examples.f16_band)
              Examples.cast floats_defaults)
      [Give (VDtypes ["float16"])] = Raised OverflowError.
Proof.
  apply (@floats_lower_cast_error_first
           (fixed_scaler (Scaler.pyfloat (- 10 ^ 10) 0)
                         (Scaler.pyfloat (10 ^ 10) 0) Examples.f16_band)
           Examples.cast floats_defaults "float16" [] []
           (Scaler.pyfloat (- 10 ^ 10) 0) (Scaler.pyfloat (10 ^ 10) 0)
           Examples.f16_band 16 OverflowError);
    vm_compute; reflexivity.
Defined.

(** ** Values the generators can return *)


(** X14: with a scale mode in force, every integer between the two bounds
    the scaling returned, the bounds included, can be returned by [ints]. *)
Theorem ints_returns_admitted_value
    (apply_safety_factor : string -> safety_args -> res (num * num * option num))
    r m d ds mn mx a z rest :
  ints_scale r = Some m ->
  apply_safety_factor d (ints_safety_args r m) = Ok (mn, mx, a) ->
  py_le mn (NInt z) = true -> py_le (NInt z) mx = true ->
  run (ints apply_safety_factor r)
      (Give (VDtypes (d :: ds)) :: Give (VInt z) :: rest) =
    Returned (VInt z) rest.
Proof.
  intros M S L U. rewrite run_ints, M, S.
  change (draw (st_integers (Some mn) (Some mx)) (Give (VInt z) :: rest))
    with (if py_le mn (NInt z) && py_le (NInt z) mx
          then Returned (VInt z) rest else Illegal).
  now rewrite L, U.
Qed.

(** The request [r] with another [small_abs_safety_factor]. *)
Definition with_small_factor (r : number_kwargs) (small : num)
    : number_kwargs := {|
  nk_min_value := nk_min_value r;
  nk_max_value := nk_max_value r;
  nk_large_abs_safety_factor := nk_large_abs_safety_factor r;
  nk_small_abs_safety_factor := small;
  nk_safety_factor_scale := nk_safety_factor_scale r
|}.

(** X12: as the docstring of [number] says, [small_abs_safety_factor] has no
    effect on integers: on the [ints] branch the run is the same whatever the
    small factor of the request, for every scaling and every sequence of host
    answers. *)
Theorem number_small_factor_not_on_ints
    (apply_safety_factor : string -> safety_args -> res (num * num * option num))
    (float_of : num -> Z -> res spec_float)
    r small tr :
  run (number apply_safety_factor float_of (with_small_factor r small))
      (Pick true :: tr) =
  run (number apply_safety_factor float_of r) (Pick true :: tr).
Proof. now rewrite !run_number. Qed.


Lemma ints_returns_admitted_value_witness :
  run (ints Examples.scaler ints_defaults)
      [Give (VDtypes ["int8"]); Give (VInt 5)] = Returned (VInt 5) [].
Proof.
  apply (@ints_returns_admitted_value Examples.scaler ints_defaults "linear"
           "int8" [] int8_scaled_min int8_scaled_max None 5 []);
    vm_compute; reflexivity.
Defined.
